(** * The inertial-unit device of the Webots controller library

    A shallow embedding of [src/lib/Controller/api/inertial_unit.c]: the
    per-device record, the answer reader, the request writer, the remote
    toggle and the public accessors, followed by the properties of the
    device synchronization protocol.

    Conventions of the embedding.
    - A C [int] is a [Z]; the places where the width of a C type matters
      (the [int] product bounding the table loop, the [size_t] byte count
      given to [malloc], the [unsigned short] argument of
      [request_write_uint16]) carry their conversion explicitly.
    - A [double] is an abstract type: the device only moves doubles around.
    - A [double *] is an optional location of a heap of double arrays;
      [None] is the [NULL] pointer.  A freshly allocated cell is
      indeterminate, written [None].
    - The step mutex ([robot_mutex_lock_step]) is not modelled: every
      function below is one atomic transition. *)

From stdpp Require Import base numbers option list strings gmap.

Local Open Scope Z_scope.

(** ** C integer types *)

Definition INT_MAX : Z := 2147483647.

(** Result of an [int] operation, two's complement.  C leaves signed
    overflow undefined: what is stated below about the contents or the
    size of the table keeps the product of the loop bound within range. *)
Definition to_int (z : Z) : Z := (z + 2 ^ 31) `mod` 2 ^ 32 - 2 ^ 31.

(** Conversion of an argument to [unsigned short]. *)
Definition to_uint16 (z : Z) : Z := z `mod` 2 ^ 16.

(** Result of a [size_t] operation (LP64). *)
Definition to_size_t (z : Z) : Z := z `mod` 2 ^ 64.

Definition sizeof_double : Z := 8.

(** [true] and [false] of <stdbool.h>, stored in an [int] field. *)
Definition c_true : Z := 1.
Definition c_false : Z := 0.

(** ** What the absent headers provide *)

(** The message tags of [messages.h] and the node kind of
    [webots/nodes.h].  The headers are not at hand, so the values are
    parameters; the tags are byte values, passed to
    [request_write_uchar] as they are. *)
Class Constants := {
  C_CONFIGURE : Z;
  C_SET_SAMPLING_PERIOD : Z;
  C_INERTIAL_UNIT_DATA : Z;
  WB_NODE_INERTIAL_UNIT : Z
}.

(** [NAN] of <math.h>. *)
Class Float64 (double : Type) := NAN : double.

(** The request primitives, declared in a header that is not at hand:
    each read returns the decoded value and the request advanced past it,
    each write the request extended by the encoded value.  The argument
    of [request_write_uint16] is an [unsigned short]: its callers convert. *)
Class Codec (double WbRequest : Type) := {
  request_read_uchar : WbRequest → Z * WbRequest;
  request_read_int32 : WbRequest → Z * WbRequest;
  request_read_double : WbRequest → double * WbRequest;
  request_write_uchar : WbRequest → Z → WbRequest;
  request_write_uint16 : WbRequest → Z → WbRequest
}.

(** ** Results of a callback *)

Inductive outcome (A : Type) : Type :=
| Done (a : A)
| Fatal.
Arguments Done {A} a.
Arguments Fatal {A}.

(** Modelled from the spec: the macro [ROBOT_ASSERT], whose definition in
    [robot_private.h] is not at hand.  Sections 4.3 and 7 of the spec make
    a failed assertion fatal: the synchronization session is terminated
    and nothing after the assertion runs. *)
Definition ROBOT_ASSERT {A} (condition : bool) (k : outcome A) : outcome A :=
  if condition then k else Fatal.

(** ** The heap of double arrays *)

Abbreviation loc := positive.
Abbreviation Heap double := (gmap loc (list (option double))).

Section Heap.
Context {double : Type}.

(** [malloc(size)]: a fresh block of [size / sizeof(double)]
    indeterminate cells; allocation is assumed to succeed. *)
Definition malloc (size : Z) (h : Heap double) : loc * Heap double :=
  let p := fresh (dom h) in
  (p, <[p := replicate (Z.to_nat (size `div` sizeof_double)) None]> h).

(** [free(p)]; [free(NULL)] does nothing. *)
Definition free (p : option loc) (h : Heap double) : Heap double :=
  match p with
  | Some l => delete l h
  | None => h
  end.

(** [p[i] = v].  An index past the block would be an out-of-bounds write
    in C and changes nothing here; the table loop never produces one. *)
Definition store (p : loc) (i : Z) (v : double) (h : Heap double) : Heap double :=
  alter (λ blk, <[Z.to_nat i := Some v]> blk) p h.
End Heap.

(** ** The device record *)

Section Device.
Context {double : Type}.

Record InertialUnit : Type := mkInertialUnit {
  enable : Z;                       (* need to enable device ? *)
  sampling_period : Z;              (* milliseconds *)
  rpy : double * double * double;   (* roll/pitch/yaw *)
  lookup_table_size : Z;
  lookup_table : option loc
}.

Definition set_enable (v : Z) (s : InertialUnit) : InertialUnit :=
  mkInertialUnit v (sampling_period s) (rpy s) (lookup_table_size s) (lookup_table s).
Definition set_sampling_period (v : Z) (s : InertialUnit) : InertialUnit :=
  mkInertialUnit (enable s) v (rpy s) (lookup_table_size s) (lookup_table s).
Definition set_rpy (v : double * double * double) (s : InertialUnit) : InertialUnit :=
  mkInertialUnit (enable s) (sampling_period s) v (lookup_table_size s) (lookup_table s).
Definition set_lookup_table_size (v : Z) (s : InertialUnit) : InertialUnit :=
  mkInertialUnit (enable s) (sampling_period s) (rpy s) v (lookup_table s).
Definition set_lookup_table (v : option loc) (s : InertialUnit) : InertialUnit :=
  mkInertialUnit (enable s) (sampling_period s) (rpy s) (lookup_table_size s) v.

(** [s->rpy[i] = v] for the three indices of the array. *)
Definition set_rpy_0 (v : double) (s : InertialUnit) : InertialUnit :=
  set_rpy (v, (rpy s).1.2, (rpy s).2) s.
Definition set_rpy_1 (v : double) (s : InertialUnit) : InertialUnit :=
  set_rpy ((rpy s).1.1, v, (rpy s).2) s.
Definition set_rpy_2 (v : double) (s : InertialUnit) : InertialUnit :=
  set_rpy ((rpy s).1.1, (rpy s).1.2, v) s.

(** The part of [WbDevice] (device_private.h) this file touches.  The
    private data of a device of another kind is never looked at. *)
Record WbDevice : Type := mkWbDevice {
  node : Z;
  pdata : InertialUnit
}.

Definition set_pdata (s : InertialUnit) (d : WbDevice) : WbDevice :=
  mkWbDevice (node d) s.
End Device.
Arguments InertialUnit : clear implicits.
Arguments WbDevice : clear implicits.

(** ** Static functions: the callbacks of the step loop *)

Section Callbacks.
Context {double WbRequest : Type}.
Context `{!Constants, !Float64 double, !Codec double WbRequest}.

Definition inertial_unit_create : InertialUnit double :=
  {| enable := c_false;
     sampling_period := 0;
     rpy := (NAN, NAN, NAN);
     lookup_table := None;
     lookup_table_size := 0 |}.

(** The body of
    [for (int i = 0; i < bound; i++) s->lookup_table[i] = request_read_double(r);]
    run with [iterations] rounds left and the index at [i]. *)
Fixpoint read_lookup_table (iterations : nat) (i : Z) (p : loc)
    (h : Heap double) (r : WbRequest) : Heap double * WbRequest :=
  match iterations with
  | O => (h, r)
  | S iterations' =>
      let '(v, r) := request_read_double r in
      read_lookup_table iterations' (i + 1) p (store p i v h) r
  end.

Definition inertial_unit_read_answer (h : Heap double) (d : WbDevice double)
    (r : WbRequest) : outcome (Heap double * WbDevice double * WbRequest) :=
  let s := pdata d in
  let '(tag, r) := request_read_uchar r in
  if tag =? C_INERTIAL_UNIT_DATA then
    let '(v, r) := request_read_double r in
    let s := set_rpy_0 v s in
    let '(v, r) := request_read_double r in
    let s := set_rpy_1 v s in
    let '(v, r) := request_read_double r in
    let s := set_rpy_2 v s in
    Done (h, set_pdata s d, r)
  else if tag =? C_CONFIGURE then
    let '(v, r) := request_read_int32 r in
    let s := set_lookup_table_size v s in
    let h := free (lookup_table s) h in
    let s := set_lookup_table None s in
    if 0 <? lookup_table_size s then
      let '(p, h) :=
        malloc (to_size_t (to_size_t (sizeof_double * lookup_table_size s) * 3)) h in
      let s := set_lookup_table (Some p) s in
      let bound := to_int (lookup_table_size s * 3) in
      let '(h, r) := read_lookup_table (Z.to_nat bound) 0 p h r in
      Done (h, set_pdata s d, r)
    else
      Done (h, set_pdata s d, r)
  else
    ROBOT_ASSERT false (Done (h, set_pdata s d, r)).  (* should never be reached *)

Definition inertial_unit_write_request (d : WbDevice double) (r : WbRequest)
    : WbDevice double * WbRequest :=
  let inertial_unit := pdata d in
  if negb (enable inertial_unit =? 0) then
    let r := request_write_uchar r C_SET_SAMPLING_PERIOD in
    let r := request_write_uint16 r (to_uint16 (sampling_period inertial_unit)) in
    let inertial_unit := set_enable c_false inertial_unit in  (* done *)
    (set_pdata inertial_unit d, r)
  else
    (d, r).

(** [free(d->pdata)] releases the record itself, which the model keeps
    in the registry and not in the heap. *)
Definition inertial_unit_cleanup (h : Heap double) (d : WbDevice double) : Heap double :=
  let acc := pdata d in
  free (lookup_table acc) h.

Definition inertial_unit_toggle_remote (d : WbDevice double) (r : WbRequest)
    : WbDevice double * WbRequest :=
  let inertial_unit := pdata d in
  if negb (sampling_period inertial_unit =? 0) then
    (set_pdata (set_enable c_true inertial_unit) d, r)
  else
    (d, r).

(** [wb_inertial_unit_init]: the callbacks are the four functions above;
    the private data is a fresh record. *)
Definition wb_inertial_unit_init (d : WbDevice double) : WbDevice double :=
  set_pdata inertial_unit_create d.
End Callbacks.

(** ** The registry and the public functions of the user API *)

Abbreviation WbDeviceTag := N.

Section Accessors.
Context {double : Type}.
Context `{!Constants}.

(** The devices of the robot and what was printed on [stderr], one
    entry per [fprintf] (without its final newline). *)
Record Robot : Type := mkRobot {
  device : gmap WbDeviceTag (WbDevice double);
  stderr : list string
}.

Definition fprintf_stderr (msg : string) (w : Robot) : Robot :=
  mkRobot (device w) (stderr w ++ [msg]).

(** Modelled from the spec: [robot_get_device_with_node], whose definition
    in [robot.c] is not at hand.  Section 6 of the spec gives it as
    [resolve(handle, expected_kind) -> State-or-null], failing for an
    unknown handle and for a handle of another kind (section 4.5); what
    it may print when [warning] is set is not specified and not modelled. *)
Definition robot_get_device_with_node (w : Robot) (tag : WbDeviceTag)
    (kind : Z) (warning : bool) : option (WbDevice double) :=
  match device w !! tag with
  | Some d => if node d =? kind then Some d else None
  | None => None
  end.

Definition inertial_unit_get_struct (w : Robot) (t : WbDeviceTag)
    : option (InertialUnit double) :=
  match robot_get_device_with_node w t WB_NODE_INERTIAL_UNIT true with
  | Some d => Some (pdata d)
  | None => None
  end.

(** Writing through the pointer returned by [inertial_unit_get_struct]. *)
Definition put_struct (t : WbDeviceTag) (s : InertialUnit double) (w : Robot) : Robot :=
  mkRobot (alter (set_pdata s) t (device w)) (stderr w).

Definition wb_inertial_unit_get_lookup_table_size (tag : WbDeviceTag) (w : Robot)
    : Z * Robot :=
  let result := 0 in
  match inertial_unit_get_struct w tag with
  | Some dev => (lookup_table_size dev, w)
  | None =>
      (result,
       fprintf_stderr "Error: wb_inertial_unit_get_lookup_table_size(): invalid device tag." w)
  end.

Definition wb_inertial_unit_get_lookup_table (tag : WbDeviceTag) (w : Robot)
    : option loc * Robot :=
  let result := None in
  match inertial_unit_get_struct w tag with
  | Some dev => (lookup_table dev, w)
  | None =>
      (result,
       fprintf_stderr "Error: wb_inertial_unit_get_lookup_table(): invalid device tag." w)
  end.

Definition wbr_inertial_unit_set_values (t : WbDeviceTag)
    (values : double * double * double) (w : Robot) : Robot :=
  match inertial_unit_get_struct w t with
  | Some inertial_unit =>
      let inertial_unit := set_rpy_0 values.1.1 inertial_unit in
      let inertial_unit := set_rpy_1 values.1.2 inertial_unit in
      let inertial_unit := set_rpy_2 values.2 inertial_unit in
      put_struct t inertial_unit w
  | None =>
      fprintf_stderr "Error: wbr_inertial_unit_set_values(): invalid device tag." w
  end.

Definition wb_inertial_unit_enable (tag : WbDeviceTag) (sampling_period : Z)
    (w : Robot) : Robot :=
  if sampling_period <? 0 then
    fprintf_stderr
      "Error: wb_inertial_unit_enable() called with negative sampling period." w
  else
    match inertial_unit_get_struct w tag with
    | Some inertial_unit =>
        let inertial_unit := set_enable c_true inertial_unit in
        let inertial_unit := set_sampling_period sampling_period inertial_unit in
        put_struct tag inertial_unit w
    | None =>
        fprintf_stderr "Error: wb_inertial_unit_enable(): invalid device tag." w
    end.

Definition wb_inertial_unit_disable (tag : WbDeviceTag) (w : Robot) : Robot :=
  match inertial_unit_get_struct w tag with
  | Some _ => wb_inertial_unit_enable tag 0 w
  | None =>
      fprintf_stderr "Error: wb_inertial_unit_disable(): invalid device tag." w
  end.

Definition wb_inertial_unit_get_sampling_period (tag : WbDeviceTag) (w : Robot)
    : Z * Robot :=
  let sampling_period_ := 0 in
  match inertial_unit_get_struct w tag with
  | Some inertial_unit => (sampling_period inertial_unit, w)
  | None =>
      (sampling_period_,
       fprintf_stderr "Error: wb_inertial_unit_get_sampling_period(): invalid device tag." w)
  end.

(** The result is the array [rpy] of the record, or [NULL]. *)
Definition wb_inertial_unit_get_roll_pitch_yaw (tag : WbDeviceTag) (w : Robot)
    : option (double * double * double) * Robot :=
  match inertial_unit_get_struct w tag with
  | Some inertial_unit =>
      let w :=
        if sampling_period inertial_unit <=? 0 then
          fprintf_stderr
            "Error: wb_inertial_unit_get_roll_pitch_yaw() called for a disabled device! Please use: wb_inertial_unit_enable()."
            w
        else w in
      (Some (rpy inertial_unit), w)
  | None =>
      (None,
       fprintf_stderr "Error: wb_inertial_unit_get_roll_pitch_yaw(): invalid device tag." w)
  end.
End Accessors.
Arguments Robot : clear implicits.

(** ** A byte-level codec, to run the model *)

(** Modelled from the spec: the request buffer and its primitives
    ([request_read_*], [request_write_*]), whose definitions are not at
    hand.  Sections 2 and 6 of the spec describe a byte stream holding
    fixed-width integers and 64-bit floating-point values in a fixed byte
    order; the order is taken little-endian here, a double is its 64-bit
    pattern, and the tags are sample values, pairwise distinct. *)
Module Wire.
Record WbRequest : Type := mkRequest {
  data : list Z;
  pointer : nat
}.

Definition byte_at (r : WbRequest) (k : nat) : Z :=
  default 0 (data r !! (pointer r + k)%nat).

Definition read_bytes (k : nat) (r : WbRequest) : list Z :=
  byte_at r <$> seq 0 k.

Definition advance (k : nat) (r : WbRequest) : WbRequest :=
  mkRequest (data r) (pointer r + k).

Definition le_value (bs : list Z) : Z :=
  foldr (λ b acc, b + 256 * acc) 0 bs.

Fixpoint le_bytes (k : nat) (v : Z) : list Z :=
  match k with
  | O => []
  | S k' => v `mod` 256 :: le_bytes k' (v `div` 256)
  end.

Definition write_bytes (bs : list Z) (r : WbRequest) : WbRequest :=
  mkRequest (take (pointer r) (data r) ++ bs) (pointer r + length bs).

#[export] Instance constants : Constants := {|
  C_CONFIGURE := 0;
  C_SET_SAMPLING_PERIOD := 1;
  C_INERTIAL_UNIT_DATA := 2;
  WB_NODE_INERTIAL_UNIT := 45
|}.

(** The quiet NaN [0x7FF8000000000000]. *)
#[export] Instance float64 : Float64 Z := 9221120237041090560.

#[export] Instance codec : Codec Z WbRequest := {|
  request_read_uchar r := (byte_at r 0, advance 1 r);
  request_read_int32 r := (to_int (le_value (read_bytes 4 r)), advance 4 r);
  request_read_double r := (le_value (read_bytes 8 r), advance 8 r);
  request_write_uchar r c := write_bytes (le_bytes 1 c) r;
  request_write_uint16 r v := write_bytes (le_bytes 2 v) r
|}.

(** An inbound message: a tag followed by its payload. *)
Definition message (tag : Z) (payload : list Z) : WbRequest :=
  mkRequest (tag :: payload) 0.

Definition int32_field (v : Z) : list Z := le_bytes 4 v.
Definition double_field (bits : Z) : list Z := le_bytes 8 bits.

(** The patterns of 0.1, -0.2 and 3.0. *)
Definition d_0_1 : Z := 0x3FB999999999999A.
Definition d_m0_2 : Z := 0xBFC999999999999A.
Definition d_3_0 : Z := 0x4008000000000000.

Definition fresh_device : WbDevice Z :=
  mkWbDevice WB_NODE_INERTIAL_UNIT inertial_unit_create.

(** A device that is enabled with the given period and not yet flushed. *)
Definition pending_device (period : Z) : WbDevice Z :=
  set_pdata (set_sampling_period period (set_enable c_true inertial_unit_create))
    fresh_device.

(** A device owning a one-row table at location 1, and the heap holding it. *)
Definition device_with_table : WbDevice Z :=
  set_pdata (set_lookup_table (Some 1%positive)
               (set_lookup_table_size 1 inertial_unit_create))
    fresh_device.
Definition heap_with_table : Heap Z :=
  {[ 1%positive := [Some d_3_0; Some d_3_0; Some d_3_0] ]}.

Definition data_message : WbRequest :=
  message C_INERTIAL_UNIT_DATA
    (double_field d_0_1 ++ double_field d_m0_2 ++ double_field d_3_0).

Definition configure_message (n : Z) (values : list Z) : WbRequest :=
  message C_CONFIGURE (int32_field n ++ mjoin (double_field <$> values)).

Definition empty_request : WbRequest := mkRequest [] 0.

(** A robot with an inertial unit at tag 1 and a device of another kind
    at tag 2; tag 3 is unknown. *)
Definition robot0 : Robot Z :=
  mkRobot {[ 1%N := fresh_device;
             2%N := mkWbDevice (WB_NODE_INERTIAL_UNIT + 1) inertial_unit_create ]} [].
End Wire.

(** ** Vocabulary of the properties *)

Section Vocabulary.
Context {double WbRequest : Type}.
Context `{!Codec double WbRequest}.

(** The next [k] doubles of a request, in stream order, and the request
    after them. *)
Fixpoint read_doubles (k : nat) (r : WbRequest) : list double * WbRequest :=
  match k with
  | O => ([], r)
  | S k' =>
      let '(v, r) := request_read_double r in
      let '(vs, r) := read_doubles k' r in
      (v :: vs, r)
  end.

(** Storage for the calibration table exists exactly when the stored
    size is positive. *)
Definition table_iff_size (s : InertialUnit double) : Prop :=
  is_Some (lookup_table s) ↔ 0 < lookup_table_size s.

Definition robot_table_iff_size (w : Robot double) : Prop :=
  ∀ t d, device w !! t = Some d → table_iff_size (pdata d).


(** The sampling period is not negative and [enable] holds [true] or
    [false]. *)
Definition period_and_flag_ok (s : InertialUnit double) : Prop :=
  0 ≤ sampling_period s ∧ (enable s = c_false ∨ enable s = c_true).

Definition robot_period_and_flag_ok (w : Robot double) : Prop :=
  ∀ t d, device w !! t = Some d → period_and_flag_ok (pdata d).

(** The robot after a callback has worked, in place, on the device
    registered at [tag]. *)
Definition device_updated (tag : WbDeviceTag) (d : WbDevice double)
    (w : Robot double) : Robot double :=
  mkRobot (<[tag := d]> (device w)) (stderr w).

(** Two robots with the same handles: the same tags, of the same kinds. *)
Definition same_handles (w w' : Robot double) : Prop :=
  ∀ t, node <$> device w' !! t = node <$> device w !! t.

(** Two robots that differ at most by the device at [tag]. *)
Definition others_untouched (tag : WbDeviceTag) (w w' : Robot double) : Prop :=
  ∀ t, t ≠ tag → device w' !! t = device w !! t.
End Vocabulary.

(** * Properties *)

(** ** The table loop *)

Section TableLoop.
Context {double WbRequest : Type}.
Context `{!Codec double WbRequest}.

Lemma read_doubles_length k (r : WbRequest) :
  length (read_doubles k r).1 = k.
Proof.
  revert r. induction k as [|k IH]; intros r; simpl; [done|].
  destruct (request_read_double r) as [v r1].
  specialize (IH r1). destruct (read_doubles k r1) as [vs r2]. simpl in *.
  by rewrite IH.
Qed.

(** Running the loop for [k] rounds from index [length pre] overwrites
    the [k] cells after [pre] with the next [k] doubles of the request
    and touches nothing else. *)
Lemma read_lookup_table_fills k :
  ∀ (pre mid post : list (option double)) (p : loc) (h : Heap double) (r : WbRequest),
    h !! p = Some (pre ++ mid ++ post) →
    length mid = k →
    read_lookup_table k (Z.of_nat (length pre)) p h r =
      (<[p := pre ++ (Some <$> (read_doubles k r).1) ++ post]> h,
       (read_doubles k r).2).
Proof.
  induction k as [|k IH]; intros pre mid post p h r Hp Hlen.
  - destruct mid; [|done]. cbn [read_lookup_table read_doubles fst snd].
    by rewrite insert_id.
  - destruct mid as [|m mid]; [done|]. simpl in Hlen.
    cbn [read_lookup_table read_doubles].
    destruct (request_read_double r) as [v r1].
    replace (Z.of_nat (length pre) + 1) with (Z.of_nat (length (pre ++ [Some v])))
      by (rewrite length_app; simpl; lia).
    rewrite (IH (pre ++ [Some v]) mid post).
    + destruct (read_doubles k r1) as [vs r2]. cbn [fst snd]. f_equal.
      unfold store. rewrite insert_alter_eq, fmap_cons.
      by rewrite <- app_assoc.
    + unfold store. rewrite lookup_alter_eq, Hp. cbn [fmap option_fmap option_map].
      f_equal. rewrite Nat2Z.id.
      replace (length pre) with (length pre + 0)%nat at 1 by lia.
      rewrite insert_app_r. by rewrite <- app_assoc.
    + lia.
Qed.
End TableLoop.

(** ** C integer conversions *)

Lemma to_int_small (z : Z) : - 2 ^ 31 ≤ z ≤ INT_MAX → to_int z = z.
Proof.
  unfold to_int, INT_MAX. intros Hz.
  rewrite Z.mod_small by lia. lia.
Qed.

(** Past [INT_MAX / 3] rows the [int] product that bounds the table loop
    no longer is the number of values of the table. *)
Example to_int_rows_overflow : to_int (715827883 * 3) = -2147483647.
Proof. reflexivity. Qed.

Lemma to_uint16_small (z : Z) : 0 ≤ z < 65536 → to_uint16 z = z.
Proof. unfold to_uint16. intros Hz. by rewrite Z.mod_small by lia. Qed.

(** The byte count passed to [malloc] holds three doubles per row. *)
Lemma table_cells (n : Z) :
  0 < n ≤ INT_MAX →
  to_size_t (to_size_t (sizeof_double * n) * 3) `div` sizeof_double = n * 3.
Proof.
  unfold to_size_t, sizeof_double, INT_MAX. intros Hn.
  rewrite (Z.mod_small (8 * n)) by lia.
  rewrite Z.mod_small by lia.
  replace (8 * n * 3) with ((n * 3) * 8) by lia.
  by rewrite Z.div_mul.
Qed.

(** The loop bound never exceeds the number of cells allocated: the
    stores of the table loop stay inside the block. *)
Lemma table_loop_in_bounds (n : Z) :
  0 < n ≤ INT_MAX →
  to_int (n * 3) ≤ to_size_t (to_size_t (sizeof_double * n) * 3) `div` sizeof_double.
Proof.
  intros Hn. rewrite table_cells by done.
  unfold to_int, INT_MAX in *.
  pose proof (Z.mod_le (n * 3 + 2 ^ 31) (2 ^ 32)). lia.
Qed.

(** ** The answer reader *)

Section AnswerReader.
Context {double WbRequest : Type}.
Context `{!Constants, !Float64 double, !Codec double WbRequest}.

(** The two [case] labels of the [switch] are different constants. *)
Hypothesis tags_distinct : C_INERTIAL_UNIT_DATA ≠ C_CONFIGURE.

Lemma configure_is_not_data : (C_CONFIGURE =? C_INERTIAL_UNIT_DATA) = false.
Proof using tags_distinct. apply Z.eqb_neq. congruence. Qed.

(** C1 (amended).  Decoding a Configure message with table size [n]
    stores [n] as the table size and releases the previous table
    storage.  For [n <= 0] the table is left absent and the stored size
    is [n] itself (0 only when [n = 0]).  For [n > 0] with [3n] within
    the range of [int], storage for [3n] doubles is allocated and holds
    the next [3n] decoded values in stream order. *)
Theorem read_answer_configure (h : Heap double) (d : WbDevice double)
    (r r1 r2 : WbRequest) (n : Z) :
  request_read_uchar r = (C_CONFIGURE, r1) →
  request_read_int32 r1 = (n, r2) →
  let released := free (lookup_table (pdata d)) h in
  let resized := set_lookup_table_size n (pdata d) in
  let p := fresh (dom released) in
  let values := read_doubles (Z.to_nat (n * 3)) r2 in
  (∀ l, lookup_table (pdata d) = Some l → released !! l = None)
  ∧ (n ≤ 0 →
     inertial_unit_read_answer h d r =
       Done (released, set_pdata (set_lookup_table None resized) d, r2))
  ∧ (0 < n → n * 3 ≤ INT_MAX →
     inertial_unit_read_answer h d r =
       Done (<[p := Some <$> values.1]> released,
             set_pdata (set_lookup_table (Some p) resized) d,
             values.2)
     ∧ Z.of_nat (length values.1) = 3 * n).
Proof using tags_distinct.
  intros Htag Hsize released resized p values.
  split; [|split].
  - intros l Hl. subst released. rewrite Hl. apply lookup_delete_eq.
  - intros Hn. unfold inertial_unit_read_answer.
    rewrite Htag, configure_is_not_data, Z.eqb_refl, Hsize.
    cbn [lookup_table_size set_lookup_table_size set_lookup_table lookup_table].
    by rewrite (proj2 (Z.ltb_ge 0 n)).
  - intros Hn Hmax. split.
    + unfold inertial_unit_read_answer.
      rewrite Htag, configure_is_not_data, Z.eqb_refl, Hsize.
      cbn [lookup_table_size set_lookup_table_size set_lookup_table lookup_table].
      rewrite (proj2 (Z.ltb_lt 0 n)) by done.
      unfold malloc. rewrite table_cells by lia.
      rewrite to_int_small by (unfold INT_MAX in *; lia).
      fold released. fold p.
      rewrite (read_lookup_table_fills _ [] (replicate (Z.to_nat (n * 3)) None) []).
      * fold values. rewrite insert_insert_eq, app_nil_r. done.
      * rewrite lookup_insert_eq. by rewrite app_nil_r.
      * apply length_replicate.
    + subst values. rewrite read_doubles_length. lia.
Qed.

(** C8.  Decoding a Data message reads three doubles and stores them,
    as read and in the order read, as the three components of the
    measurement: the measurement of the device returned is exactly
    [(v0, v1, v2)], its other fields and the heap are as before, and the
    request is the one left by the three reads.  Nothing else is read
    and nothing is checked. *)
Theorem read_answer_data (h : Heap double) (d : WbDevice double)
    (r r0 r1 r2 r3 : WbRequest) (v0 v1 v2 : double) :
  request_read_uchar r = (C_INERTIAL_UNIT_DATA, r0) →
  request_read_double r0 = (v0, r1) →
  request_read_double r1 = (v1, r2) →
  request_read_double r2 = (v2, r3) →
  inertial_unit_read_answer h d r =
    Done (h, set_pdata (set_rpy (v0, v1, v2) (pdata d)) d, r3)
  ∧ ∃ d',
      inertial_unit_read_answer h d r = Done (h, d', r3)
      ∧ rpy (pdata d') = (v0, v1, v2)
      ∧ enable (pdata d') = enable (pdata d)
      ∧ sampling_period (pdata d') = sampling_period (pdata d)
      ∧ lookup_table_size (pdata d') = lookup_table_size (pdata d)
      ∧ lookup_table (pdata d') = lookup_table (pdata d)
      ∧ node d' = node d.
Proof.
  intros Htag H0 H1 H2.
  assert (inertial_unit_read_answer h d r =
          Done (h, set_pdata (set_rpy (v0, v1, v2) (pdata d)) d, r3)) as Hrun.
  { unfold inertial_unit_read_answer.
    by rewrite Htag, Z.eqb_refl, H0, H1, H2. }
  split; [exact Hrun|].
  exists (set_pdata (set_rpy (v0, v1, v2) (pdata d)) d).
  split; [exact Hrun|].
  cbn [pdata set_pdata node rpy set_rpy enable sampling_period lookup_table_size
       lookup_table].
  repeat split.
Qed.

(** C6.  A message whose tag is neither the Data tag nor the Configure
    tag takes the reader to its assertion, with a false condition and
    with the heap and the device as they were: the outcome is fatal and
    carries no updated state. *)
Theorem read_answer_unknown_tag (h : Heap double) (d : WbDevice double)
    (r : WbRequest) :
  (request_read_uchar r).1 ≠ C_INERTIAL_UNIT_DATA →
  (request_read_uchar r).1 ≠ C_CONFIGURE →
  inertial_unit_read_answer h d r =
    ROBOT_ASSERT false (Done (h, d, (request_read_uchar r).2))
  ∧ inertial_unit_read_answer h d r = Fatal.
Proof.
  intros Hdata Hconf. unfold inertial_unit_read_answer.
  destruct (request_read_uchar r) as [tag r0]. simpl in *.
  by rewrite (proj2 (Z.eqb_neq _ _) Hdata), (proj2 (Z.eqb_neq _ _) Hconf).
Qed.
End AnswerReader.

Section AnswerReaderFrame.
Context {double WbRequest : Type}.
Context `{!Constants, !Float64 double, !Codec double WbRequest}.

(** What a completed decoding can have done, by tag. *)
Lemma read_answer_done_inv (h h' : Heap double) (d d' : WbDevice double)
    (r r' : WbRequest) :
  inertial_unit_read_answer h d r = Done (h', d', r') →
  ((request_read_uchar r).1 = C_INERTIAL_UNIT_DATA
   ∧ h' = h
   ∧ ∃ v, d' = set_pdata (set_rpy v (pdata d)) d)
  ∨ ((request_read_uchar r).1 ≠ C_INERTIAL_UNIT_DATA
     ∧ (request_read_uchar r).1 = C_CONFIGURE
     ∧ ∃ n t, d' = set_pdata (set_lookup_table t (set_lookup_table_size n (pdata d))) d
              ∧ (is_Some t ↔ 0 < n)).
Proof.
  unfold inertial_unit_read_answer.
  destruct (request_read_uchar r) as [tag r0]. cbn [fst].
  destruct (Z.eqb_spec tag C_INERTIAL_UNIT_DATA) as [Hdata|Hdata].
  - destruct (request_read_double r0) as [v0 r1].
    destruct (request_read_double r1) as [v1 r2].
    destruct (request_read_double r2) as [v2 r3].
    intros [= <- <- <-]. left. repeat split; [done|]. by eexists.
  - destruct (Z.eqb_spec tag C_CONFIGURE) as [Hconf|Hconf]; [|done].
    destruct (request_read_int32 r0) as [n r1].
    cbn [lookup_table_size set_lookup_table_size set_lookup_table lookup_table].
    destruct (Z.ltb_spec 0 n) as [Hn|Hn].
    + unfold malloc.
      destruct (read_lookup_table _ _ _ _ _) as [h1 r2].
      intros [= <- <- <-]. right. repeat split; [done..|].
      eexists n, (Some _). split; [done|]. split; [done|]. by eexists.
    + intros [= <- <- <-]. right. repeat split; [done..|].
      exists n, None. split; [done|]. split; [intros [? [=]]|lia].
Qed.

(** A message with a recognized tag is decoded to the end. *)
Lemma read_answer_recognized (h : Heap double) (d : WbDevice double) (r : WbRequest) :
  (request_read_uchar r).1 = C_INERTIAL_UNIT_DATA
  ∨ (request_read_uchar r).1 = C_CONFIGURE →
  ∃ h' d' r', inertial_unit_read_answer h d r = Done (h', d', r').
Proof.
  unfold inertial_unit_read_answer.
  destruct (request_read_uchar r) as [tag r0]. cbn [fst]. intros Htag.
  destruct (Z.eqb_spec tag C_INERTIAL_UNIT_DATA) as [Hdata|Hdata].
  - destruct (request_read_double r0) as [v0 r1].
    destruct (request_read_double r1) as [v1 r2].
    destruct (request_read_double r2) as [v2 r3]. by do 3 eexists.
  - destruct Htag as [?| ->]; [done|]. rewrite Z.eqb_refl.
    destruct (request_read_int32 r0) as [n r1].
    destruct (0 <? _); [|by do 3 eexists].
    destruct (malloc _ _) as [p h1].
    destruct (read_lookup_table _ _ _ _ _) as [h2 r2]. by do 3 eexists.
Qed.

Hypothesis tags_distinct : C_INERTIAL_UNIT_DATA ≠ C_CONFIGURE.

(** C10.  Decoding a message with a recognized tag completes and leaves
    [enable] and [sampling_period] as they were: a Data message changes
    nothing but the measurement (the heap included), a Configure message
    nothing of the record but the table and its size. *)
Theorem read_answer_frame (h : Heap double) (d : WbDevice double) (r : WbRequest) :
  (request_read_uchar r).1 = C_INERTIAL_UNIT_DATA
  ∨ (request_read_uchar r).1 = C_CONFIGURE →
  ∃ h' d' r',
    inertial_unit_read_answer h d r = Done (h', d', r')
    ∧ enable (pdata d') = enable (pdata d)
    ∧ sampling_period (pdata d') = sampling_period (pdata d)
    ∧ ((request_read_uchar r).1 = C_INERTIAL_UNIT_DATA →
       h' = h ∧ d' = set_pdata (set_rpy (rpy (pdata d')) (pdata d)) d)
    ∧ ((request_read_uchar r).1 = C_CONFIGURE →
       d' = set_pdata
              (set_lookup_table (lookup_table (pdata d'))
                 (set_lookup_table_size (lookup_table_size (pdata d')) (pdata d)))
              d).
Proof using tags_distinct.
  intros Htag.
  destruct (read_answer_recognized h d r Htag) as (h' & d' & r' & Hrun).
  exists h', d', r'. split; [done|].
  destruct (read_answer_done_inv _ _ _ _ _ _ Hrun)
    as [(Hdata & Hh & v & Hd)|(Hdata & Hconf & n & t & Hd & _)]; subst.
  - split; [done|]. split; [done|]. split; [done|].
    intros Hconf. congruence.
  - split; [done|]. split; [done|]. split; [done|].
    intros _. done.
Qed.
End AnswerReaderFrame.

(** ** The request writer and the remote toggle *)

Section RequestWriter.
Context {double WbRequest : Type}.
Context `{!Constants, !Float64 double, !Codec double WbRequest}.

(** C2 (amended).  When [enable] is set, one flush writes one command,
    the tag [C_SET_SAMPLING_PERIOD] followed by the sampling period
    converted to the unsigned 16-bit field of the command, and clears
    [enable]; the field is the sampling period itself whenever that is
    below 65536.  When [enable] is clear, the flush writes nothing and
    changes nothing. *)
Theorem write_request_flush (d : WbDevice double) (r : WbRequest) :
  (enable (pdata d) ≠ 0 →
   inertial_unit_write_request d r =
     (set_pdata (set_enable c_false (pdata d)) d,
      request_write_uint16 (request_write_uchar r C_SET_SAMPLING_PERIOD)
        (sampling_period (pdata d) `mod` 2 ^ 16)))
  ∧ (enable (pdata d) = 0 → inertial_unit_write_request d r = (d, r))
  ∧ (0 ≤ sampling_period (pdata d) < 65536 →
     sampling_period (pdata d) `mod` 2 ^ 16 = sampling_period (pdata d)).
Proof.
  unfold inertial_unit_write_request. repeat split.
  - intros Hen. by rewrite (proj2 (Z.eqb_neq _ _) Hen).
  - intros ->. done.
  - intros Hp. by apply to_uint16_small.
Qed.

(** C7.  The remote toggle sets [enable] when the sampling period is not
    0, whatever [enable] was: the device it returns has [enable] equal to
    1 and every other field, and the request, as before.  It changes
    nothing when the sampling period is 0. *)
Theorem toggle_remote_rearms (d : WbDevice double) (r : WbRequest) :
  (sampling_period (pdata d) ≠ 0 →
   inertial_unit_toggle_remote d r = (set_pdata (set_enable c_true (pdata d)) d, r)
   ∧ enable (pdata (inertial_unit_toggle_remote d r).1) = 1
   ∧ sampling_period (pdata (inertial_unit_toggle_remote d r).1) =
       sampling_period (pdata d)
   ∧ rpy (pdata (inertial_unit_toggle_remote d r).1) = rpy (pdata d)
   ∧ lookup_table_size (pdata (inertial_unit_toggle_remote d r).1) =
       lookup_table_size (pdata d)
   ∧ lookup_table (pdata (inertial_unit_toggle_remote d r).1) =
       lookup_table (pdata d)
   ∧ node (inertial_unit_toggle_remote d r).1 = node d
   ∧ (inertial_unit_toggle_remote d r).2 = r)
  ∧ (sampling_period (pdata d) = 0 → inertial_unit_toggle_remote d r = (d, r)).
Proof.
  unfold inertial_unit_toggle_remote. split.
  - intros Hp. rewrite (proj2 (Z.eqb_neq _ _) Hp).
    cbn [negb fst snd pdata set_pdata node].
    repeat split.
  - intros ->. done.
Qed.
End RequestWriter.

(** ** The public functions *)

Section PublicFunctions.
Context {double : Type}.
Context `{!Constants}.

Implicit Types (w : Robot double) (s : InertialUnit double) (tag : WbDeviceTag).

Lemma get_struct_Some w tag s :
  inertial_unit_get_struct w tag = Some s ↔
  ∃ d, device w !! tag = Some d ∧ node d = WB_NODE_INERTIAL_UNIT ∧ pdata d = s.
Proof.
  unfold inertial_unit_get_struct, robot_get_device_with_node.
  destruct (device w !! tag) as [d|]; [|split; [done|by intros (? & ? & _)]].
  destruct (Z.eqb_spec (node d) WB_NODE_INERTIAL_UNIT) as [Hk|Hk]; split.
  - intros [= <-]. by exists d.
  - intros (d' & [= <-] & _ & <-). done.
  - done.
  - intros (d' & [= <-] & ? & _). done.
Qed.

Lemma get_struct_put w tag s s' :
  inertial_unit_get_struct w tag = Some s →
  inertial_unit_get_struct (put_struct tag s' w) tag = Some s'.
Proof.
  intros (d & Hd & Hk & _)%get_struct_Some. apply get_struct_Some.
  exists (set_pdata s' d). cbn [put_struct device].
  by rewrite lookup_alter_eq, Hd.
Qed.

Lemma get_struct_fprintf w tag msg :
  inertial_unit_get_struct (fprintf_stderr msg w) tag = inertial_unit_get_struct w tag.
Proof. done. Qed.

(** A write through the device pointer keeps what holds of every record
    of the registry, provided it holds of the record written. *)
Lemma put_struct_all (P : InertialUnit double → Prop) w tag s :
  (∀ t d, device w !! t = Some d → P (pdata d)) →
  P s →
  ∀ t d, device (put_struct tag s w) !! t = Some d → P (pdata d).
Proof.
  intros Hall Hs t d. cbn [put_struct device].
  destruct (decide (tag = t)) as [<-|Hne].
  - rewrite lookup_alter_eq. destruct (device w !! tag); [|done].
    by intros [= <-].
  - rewrite lookup_alter_ne by done. apply Hall.
Qed.

(** C3.  On a valid handle, for every period [p >= 0] ([p = 0]
    included), [wb_inertial_unit_enable] stores [p] as the sampling
    period and sets [enable], and [wb_inertial_unit_get_sampling_period]
    called next returns [p]. *)
Theorem enable_then_get_sampling_period w tag (p : Z) s :
  0 ≤ p →
  inertial_unit_get_struct w tag = Some s →
  let w' := wb_inertial_unit_enable tag p w in
  inertial_unit_get_struct w' tag = Some (set_sampling_period p (set_enable c_true s))
  ∧ sampling_period (set_sampling_period p (set_enable c_true s)) = p
  ∧ enable (set_sampling_period p (set_enable c_true s)) = c_true
  ∧ wb_inertial_unit_get_sampling_period tag w' = (p, w').
Proof.
  intros Hp Hs w'.
  assert (inertial_unit_get_struct w' tag =
          Some (set_sampling_period p (set_enable c_true s))) as Hs'.
  { subst w'. unfold wb_inertial_unit_enable.
    rewrite (proj2 (Z.ltb_ge p 0)) by done. rewrite Hs.
    by eapply get_struct_put. }
  repeat split; [done|].
  unfold wb_inertial_unit_get_sampling_period. by rewrite Hs'.
Qed.

(** C4.  For every period [p < 0] and every handle, valid or not,
    [wb_inertial_unit_enable] reports the negative period on [stderr]
    and returns with every device record as it was. *)
Theorem enable_negative_period w tag (p : Z) :
  p < 0 →
  device (wb_inertial_unit_enable tag p w) = device w
  ∧ stderr (wb_inertial_unit_enable tag p w) =
      stderr w ++
      ["Error: wb_inertial_unit_enable() called with negative sampling period."].
Proof.
  intros Hp. unfold wb_inertial_unit_enable.
  by rewrite (proj2 (Z.ltb_lt p 0)).
Qed.

(** C9.  [wb_inertial_unit_disable] does what [wb_inertial_unit_enable]
    does with period 0.  On a valid handle the two leave the same robot,
    whose device has sampling period 0 and [enable] set.  On an invalid
    handle each prints one error and leaves every device record as it
    was. *)
Theorem disable_is_enable_0 w tag :
  (∀ s, inertial_unit_get_struct w tag = Some s →
     wb_inertial_unit_disable tag w = wb_inertial_unit_enable tag 0 w
     ∧ ∃ s', inertial_unit_get_struct (wb_inertial_unit_disable tag w) tag = Some s'
             ∧ sampling_period s' = 0 ∧ enable s' = c_true)
  ∧ (inertial_unit_get_struct w tag = None →
     device (wb_inertial_unit_disable tag w) = device w
     ∧ device (wb_inertial_unit_enable tag 0 w) = device w
     ∧ stderr (wb_inertial_unit_disable tag w) =
         stderr w ++ ["Error: wb_inertial_unit_disable(): invalid device tag."]
     ∧ stderr (wb_inertial_unit_enable tag 0 w) =
         stderr w ++ ["Error: wb_inertial_unit_enable(): invalid device tag."]).
Proof.
  split.
  - intros s Hs.
    assert (wb_inertial_unit_disable tag w = wb_inertial_unit_enable tag 0 w) as Heq.
    { unfold wb_inertial_unit_disable. by rewrite Hs. }
    split; [done|]. rewrite Heq.
    exists (set_sampling_period 0 (set_enable c_true s)).
    repeat split. unfold wb_inertial_unit_enable. cbn [Z.ltb Z.compare].
    rewrite Hs. by eapply get_struct_put.
  - intros Hnone. unfold wb_inertial_unit_disable, wb_inertial_unit_enable.
    cbn [Z.ltb Z.compare]. by rewrite Hnone.
Qed.
End PublicFunctions.

(** ** The table invariant *)

Section TableInvariant.
Context {double WbRequest : Type}.
Context `{!Constants, !Float64 double, !Codec double WbRequest}.

(** C5.  Storage for the calibration table exists exactly when the
    stored size is positive: this holds of a fresh record and is kept by
    the answer reader, the request writer, the remote toggle,
    [wb_inertial_unit_enable], [wb_inertial_unit_disable] and
    [wbr_inertial_unit_set_values]. *)
Theorem table_iff_size_invariant :
  table_iff_size inertial_unit_create
  ∧ (∀ (h h' : Heap double) (d d' : WbDevice double) (r r' : WbRequest),
       table_iff_size (pdata d) →
       inertial_unit_read_answer h d r = Done (h', d', r') →
       table_iff_size (pdata d'))
  ∧ (∀ (d : WbDevice double) (r : WbRequest),
       table_iff_size (pdata d) →
       table_iff_size (pdata (inertial_unit_write_request d r).1))
  ∧ (∀ (d : WbDevice double) (r : WbRequest),
       table_iff_size (pdata d) →
       table_iff_size (pdata (inertial_unit_toggle_remote d r).1))
  ∧ (∀ (w : Robot double) (tag : WbDeviceTag) (p : Z),
       robot_table_iff_size w →
       robot_table_iff_size (wb_inertial_unit_enable tag p w))
  ∧ (∀ (w : Robot double) (tag : WbDeviceTag),
       robot_table_iff_size w →
       robot_table_iff_size (wb_inertial_unit_disable tag w))
  ∧ (∀ (w : Robot double) (tag : WbDeviceTag) (values : double * double * double),
       robot_table_iff_size w →
       robot_table_iff_size (wbr_inertial_unit_set_values tag values w)).
Proof.
  assert (∀ (w : Robot double) (tag : WbDeviceTag) (p : Z),
             robot_table_iff_size w →
             robot_table_iff_size (wb_inertial_unit_enable tag p w)) as Henable.
  { intros w tag p Hw. unfold wb_inertial_unit_enable.
    destruct (p <? 0); [exact Hw|].
    destruct (inertial_unit_get_struct w tag) as [s|] eqn:Hs; [|exact Hw].
    apply get_struct_Some in Hs as (d0 & Hd0 & _ & <-).
    intros t d. apply (put_struct_all table_iff_size); [exact Hw|].
    exact (Hw _ _ Hd0). }
  split; [|split; [|split; [|split; [|split; [|split]]]]].
  - unfold table_iff_size. cbn. split; [intros [? [=]]|lia].
  - intros h h' d d' r r' Hd Hrun.
    destruct (read_answer_done_inv _ _ _ _ _ _ Hrun)
      as [(_ & _ & v & Hd')|(_ & _ & n & t & Hd' & Hiff)]; subst d'; done.
  - intros d r Hd. unfold inertial_unit_write_request.
    by destruct (negb _).
  - intros d r Hd. unfold inertial_unit_toggle_remote.
    by destruct (negb _).
  - exact Henable.
  - intros w tag Hw. unfold wb_inertial_unit_disable.
    destruct (inertial_unit_get_struct w tag); [by apply Henable|exact Hw].
  - intros w tag values Hw. unfold wbr_inertial_unit_set_values.
    destruct (inertial_unit_get_struct w tag) as [s|] eqn:Hs; [|exact Hw].
    apply get_struct_Some in Hs as (d0 & Hd0 & _ & <-).
    intros t d. apply (put_struct_all table_iff_size); [exact Hw|].
    exact (Hw _ _ Hd0).
Qed.
End TableInvariant.

(** ** The heap footprint of the answer reader *)

Section HeapFootprint.
Context {double WbRequest : Type}.
Context `{!Constants, !Float64 double, !Codec double WbRequest}.

(** The table loop writes to the block at [p] only. *)
Lemma read_lookup_table_other k :
  ∀ (i : Z) (p l : loc) (h : Heap double) (r : WbRequest),
    l ≠ p → (read_lookup_table k i p h r).1 !! l = h !! l.
Proof.
  induction k as [|k IH]; intros i p l h r Hl; cbn [read_lookup_table]; [done|].
  destruct (request_read_double r) as [v r1].
  rewrite IH by done. unfold store. by rewrite lookup_alter_ne.
Qed.


(** Releasing the block at [p] undoes the table loop. *)
Lemma read_lookup_table_delete k :
  ∀ (i : Z) (p : loc) (h : Heap double) (r : WbRequest),
    delete p (read_lookup_table k i p h r).1 = delete p h.
Proof.
  induction k as [|k IH]; intros i p h r; cbn [read_lookup_table]; [done|].
  destruct (request_read_double r) as [v r1].
  rewrite IH. unfold store. by rewrite delete_alter_eq.
Qed.

Lemma free_other (h : Heap double) (p : option loc) (l : loc) :
  p ≠ Some l → free p h !! l = h !! l.
Proof.
  destruct p as [q|]; [|done]. intros Hne. cbn.
  apply lookup_delete_ne. congruence.
Qed.

Hypothesis tags_distinct : C_INERTIAL_UNIT_DATA ≠ C_CONFIGURE.

(** The Configure branch for a size that is not positive. *)
Lemma read_answer_configure_nonpositive (h : Heap double) (d : WbDevice double)
    (r r1 r2 : WbRequest) (n : Z) :
  request_read_uchar r = (C_CONFIGURE, r1) →
  request_read_int32 r1 = (n, r2) →
  n ≤ 0 →
  inertial_unit_read_answer h d r =
    Done (free (lookup_table (pdata d)) h,
          set_pdata (set_lookup_table None (set_lookup_table_size n (pdata d))) d,
          r2).
Proof using tags_distinct.
  intros Htag Hsize Hn. unfold inertial_unit_read_answer.
  rewrite Htag, (proj2 (Z.eqb_neq _ _)) by congruence.
  rewrite Z.eqb_refl, Hsize.
  cbn [lookup_table_size set_lookup_table_size set_lookup_table lookup_table].
  by rewrite (proj2 (Z.ltb_ge 0 n)).
Qed.

(** The Configure branch for a positive size, with the loop left as the
    model has it. *)
Lemma read_answer_configure_positive (h : Heap double) (d : WbDevice double)
    (r r1 r2 : WbRequest) (n : Z) :
  request_read_uchar r = (C_CONFIGURE, r1) →
  request_read_int32 r1 = (n, r2) →
  0 < n →
  let released := free (lookup_table (pdata d)) h in
  let p := fresh (dom released) in
  let cells :=
    Z.to_nat (to_size_t (to_size_t (sizeof_double * n) * 3) `div` sizeof_double) in
  let run :=
    read_lookup_table (Z.to_nat (to_int (n * 3))) 0 p
      (<[p := replicate cells None]> released) r2 in
  inertial_unit_read_answer h d r =
    Done (run.1,
          set_pdata (set_lookup_table (Some p) (set_lookup_table_size n (pdata d))) d,
          run.2).
Proof using tags_distinct.
  intros Htag Hsize Hn released p cells run. unfold inertial_unit_read_answer.
  rewrite Htag, (proj2 (Z.eqb_neq _ _)) by congruence.
  rewrite Z.eqb_refl, Hsize.
  cbn [lookup_table_size set_lookup_table_size set_lookup_table lookup_table].
  rewrite (proj2 (Z.ltb_lt 0 n)) by done.
  unfold malloc. fold released. fold p. fold cells. fold run.
  by destruct run.
Qed.

(** X1.  A Configure message of any size is decoded to the end; the
    location of the new table, if there is one, was not live once the
    old table was released, and every block other than the old and the
    new table is as it was. *)
Theorem configure_heap_footprint (h : Heap double) (d : WbDevice double)
    (r r1 r2 : WbRequest) (n : Z) :
  request_read_uchar r = (C_CONFIGURE, r1) →
  request_read_int32 r1 = (n, r2) →
  ∃ h' d' r',
    inertial_unit_read_answer h d r = Done (h', d', r')
    ∧ (∀ p, lookup_table (pdata d') = Some p →
         free (lookup_table (pdata d)) h !! p = None)
    ∧ (∀ l, lookup_table (pdata d) ≠ Some l →
            lookup_table (pdata d') ≠ Some l →
            h' !! l = h !! l).
Proof using tags_distinct.
  intros Htag Hsize. destruct (Z.le_gt_cases n 0) as [Hn|Hn].
  - rewrite (read_answer_configure_nonpositive h d r r1 r2 n) by done.
    do 3 eexists. split; [done|].
    split; [done|]. intros l Hold _. by apply free_other.
  - rewrite (read_answer_configure_positive h d r r1 r2 n) by done.
    do 3 eexists. split; [done|].
    cbn [pdata set_pdata lookup_table set_lookup_table]. split.
    + intros p [= <-]. apply not_elem_of_dom, is_fresh.
    + intros l Hold Hnew.
      rewrite read_lookup_table_other by congruence.
      rewrite lookup_insert_ne by congruence. by apply free_other.
Qed.



(** X3.  Whatever a Configure message made the reader allocate, the
    cleanup of the device releases it: the heap after decoding and
    cleanup is the heap before, less the old table. *)
Theorem configure_then_cleanup (h : Heap double) (d : WbDevice double)
    (r r1 r2 : WbRequest) (n : Z) :
  request_read_uchar r = (C_CONFIGURE, r1) →
  request_read_int32 r1 = (n, r2) →
  ∃ h' d' r',
    inertial_unit_read_answer h d r = Done (h', d', r')
    ∧ inertial_unit_cleanup h' d' = free (lookup_table (pdata d)) h.
Proof using tags_distinct.
  intros Htag Hsize. destruct (Z.le_gt_cases n 0) as [Hn|Hn].
  - rewrite (read_answer_configure_nonpositive h d r r1 r2 n) by done.
    do 3 eexists. split; [done|]. done.
  - rewrite (read_answer_configure_positive h d r r1 r2 n) by done.
    do 3 eexists. split; [done|].
    unfold inertial_unit_cleanup.
    cbn [pdata set_pdata lookup_table set_lookup_table free].
    rewrite read_lookup_table_delete.
    apply delete_insert_id, not_elem_of_dom, is_fresh.
Qed.
End HeapFootprint.

(** ** The edge-triggered flag *)

Section EdgeTrigger.
Context {double WbRequest : Type}.
Context `{!Constants, !Float64 double, !Codec double WbRequest}.

(** X4.  After a flush [enable] is clear, whatever it was, and a second
    flush right after the first writes nothing and changes nothing. *)
Theorem write_request_twice (d : WbDevice double) (r r' : WbRequest) :
  enable (pdata (inertial_unit_write_request d r).1) = c_false
  ∧ inertial_unit_write_request (inertial_unit_write_request d r).1 r' =
      ((inertial_unit_write_request d r).1, r').
Proof.
  unfold inertial_unit_write_request.
  destruct (Z.eqb_spec (enable (pdata d)) 0) as [Hen|Hen]; cbn.
  - split; [done|]. by rewrite Hen.
  - done.
Qed.

(** X5.  The remote toggle followed by a flush: with a sampling period
    other than 0 the flush writes the command of the current period,
    also when [enable] was clear, and leaves the device as it was with
    [enable] clear; with a sampling period of 0 and [enable] clear the
    flush writes nothing.  Toggling twice is toggling once. *)
Theorem toggle_remote_then_flush (d : WbDevice double) (r r' : WbRequest) :
  (sampling_period (pdata d) ≠ 0 →
   inertial_unit_write_request (inertial_unit_toggle_remote d r).1 r' =
     (set_pdata (set_enable c_false (pdata d)) d,
      request_write_uint16 (request_write_uchar r' C_SET_SAMPLING_PERIOD)
        (to_uint16 (sampling_period (pdata d)))))
  ∧ (sampling_period (pdata d) = 0 → enable (pdata d) = 0 →
     inertial_unit_write_request (inertial_unit_toggle_remote d r).1 r' = (d, r'))
  ∧ inertial_unit_toggle_remote (inertial_unit_toggle_remote d r).1 r' =
      ((inertial_unit_toggle_remote d r).1, r').
Proof.
  unfold inertial_unit_toggle_remote.
  destruct (Z.eqb_spec (sampling_period (pdata d)) 0) as [Hp|Hp]; cbn.
  - split; [done|]. split.
    + intros _ Hen. unfold inertial_unit_write_request. by rewrite Hen.
    + by rewrite Hp.
  - split; [done|]. split; [done|].
    by rewrite (proj2 (Z.eqb_neq _ _) Hp).
Qed.

(** X6.  The sampling period is never negative and [enable] is [true] or
    [false]: this holds of a fresh record and of a device just
    initialized, and is kept by the answer reader, the request writer,
    the remote toggle and the public functions that write the record. *)
Theorem period_and_flag_invariant :
  period_and_flag_ok inertial_unit_create
  ∧ (∀ d : WbDevice double, period_and_flag_ok (pdata (wb_inertial_unit_init d)))
  ∧ (∀ (h h' : Heap double) (d d' : WbDevice double) (r r' : WbRequest),
       period_and_flag_ok (pdata d) →
       inertial_unit_read_answer h d r = Done (h', d', r') →
       period_and_flag_ok (pdata d'))
  ∧ (∀ (d : WbDevice double) (r : WbRequest),
       period_and_flag_ok (pdata d) →
       period_and_flag_ok (pdata (inertial_unit_write_request d r).1))
  ∧ (∀ (d : WbDevice double) (r : WbRequest),
       period_and_flag_ok (pdata d) →
       period_and_flag_ok (pdata (inertial_unit_toggle_remote d r).1))
  ∧ (∀ (w : Robot double) (tag : WbDeviceTag) (p : Z),
       robot_period_and_flag_ok w →
       robot_period_and_flag_ok (wb_inertial_unit_enable tag p w))
  ∧ (∀ (w : Robot double) (tag : WbDeviceTag),
       robot_period_and_flag_ok w →
       robot_period_and_flag_ok (wb_inertial_unit_disable tag w))
  ∧ (∀ (w : Robot double) (tag : WbDeviceTag) (values : double * double * double),
       robot_period_and_flag_ok w →
       robot_period_and_flag_ok (wbr_inertial_unit_set_values tag values w)).
Proof.
  assert (∀ (w : Robot double) (tag : WbDeviceTag) (p : Z),
             robot_period_and_flag_ok w →
             robot_period_and_flag_ok (wb_inertial_unit_enable tag p w)) as Henable.
  { intros w tag p Hw. unfold wb_inertial_unit_enable.
    destruct (Z.ltb_spec p 0) as [Hp|Hp]; [exact Hw|].
    destruct (inertial_unit_get_struct w tag) as [s|]; [|exact Hw].
    intros t d. apply (put_struct_all period_and_flag_ok); [exact Hw|].
    split; [done|by right]. }
  assert (period_and_flag_ok (inertial_unit_create (double := double))) as Hcreate.
  { split; [done|by left]. }
  split; [done|]. split; [done|].
  split; [|split; [|split; [|split; [|split]]]].
  - intros h h' d d' r r' Hd Hrun.
    destruct (read_answer_done_inv _ _ _ _ _ _ Hrun)
      as [(_ & _ & v & Hd')|(_ & _ & n & t & Hd' & _)]; subst d'; done.
  - intros d r [Hp Hen]. unfold inertial_unit_write_request.
    destruct (negb _); [|done]. split; [done|by left].
  - intros d r [Hp Hen]. unfold inertial_unit_toggle_remote.
    destruct (negb _); [|done]. split; [done|by right].
  - exact Henable.
  - intros w tag Hw. unfold wb_inertial_unit_disable.
    destruct (inertial_unit_get_struct w tag); [by apply Henable|exact Hw].
  - intros w tag values Hw. unfold wbr_inertial_unit_set_values.
    destruct (inertial_unit_get_struct w tag) as [s|] eqn:Hs; [|exact Hw].
    apply get_struct_Some in Hs as (d0 & Hd0 & _ & <-).
    intros t d. apply (put_struct_all period_and_flag_ok); [exact Hw|].
    exact (Hw _ _ Hd0).
Qed.
End EdgeTrigger.

(** ** The public functions, composed *)

Section PublicFunctionsComposed.
Context {double : Type}.
Context `{!Constants}.

Implicit Types (w : Robot double) (s : InertialUnit double) (tag : WbDeviceTag).

(** A handle is invalid when its tag is unknown or names a device of
    another kind. *)
Lemma get_struct_None w tag :
  inertial_unit_get_struct w tag = None ↔
  device w !! tag = None
  ∨ ∃ d, device w !! tag = Some d ∧ node d ≠ WB_NODE_INERTIAL_UNIT.
Proof.
  unfold inertial_unit_get_struct, robot_get_device_with_node.
  destruct (device w !! tag) as [d|]; [|by split; [left|]].
  destruct (Z.eqb_spec (node d) WB_NODE_INERTIAL_UNIT) as [Hk|Hk]; split.
  - done.
  - intros [[=]|(d' & [= <-] & Hne)]. done.
  - intros _. right. by exists d.
  - done.
Qed.

Lemma put_struct_put_struct w tag s1 s2 :
  put_struct tag s2 (put_struct tag s1 w) = put_struct tag s2 w.
Proof.
  unfold put_struct. cbn [device stderr]. f_equal.
  rewrite alter_alter_eq. by apply alter_ext.
Qed.

Lemma put_struct_others w tag s : others_untouched tag w (put_struct tag s w).
Proof. intros t Ht. cbn [put_struct device]. by rewrite lookup_alter_ne. Qed.

Lemma put_struct_handles w tag s : same_handles w (put_struct tag s w).
Proof.
  intros t. cbn [put_struct device].
  destruct (decide (tag = t)) as [<-|Hne].
  - rewrite lookup_alter_eq. by destruct (device w !! tag).
  - by rewrite lookup_alter_ne.
Qed.

(** With the same handles, the same handles are valid. *)
Lemma same_handles_valid w w' :
  same_handles w w' →
  ∀ t, is_Some (inertial_unit_get_struct w' t) ↔ is_Some (inertial_unit_get_struct w t).
Proof.
  intros Hsame t. specialize (Hsame t).
  unfold inertial_unit_get_struct, robot_get_device_with_node.
  destruct (device w' !! t) as [d'|], (device w !! t) as [d|];
    cbn in Hsame; try done.
  injection Hsame as ->. by destruct (node d =? WB_NODE_INERTIAL_UNIT).
Qed.

(** The device a callback has worked on is found under its handle. *)
Lemma get_struct_device_updated w tag (d' : WbDevice double) :
  node d' = WB_NODE_INERTIAL_UNIT →
  inertial_unit_get_struct (device_updated tag d' w) tag = Some (pdata d').
Proof.
  intros Hk. apply get_struct_Some. exists d'.
  cbn [device_updated device]. by rewrite lookup_insert_eq.
Qed.

(** X7.  On a valid handle, of two calls of [wb_inertial_unit_enable]
    with periods that are not negative only the last one counts: the
    robot is the one the last call alone would leave. *)
Theorem enable_last_write_wins w tag (p1 p2 : Z) s :
  0 ≤ p1 → 0 ≤ p2 →
  inertial_unit_get_struct w tag = Some s →
  wb_inertial_unit_enable tag p2 (wb_inertial_unit_enable tag p1 w) =
    wb_inertial_unit_enable tag p2 w.
Proof.
  intros Hp1 Hp2 Hs. unfold wb_inertial_unit_enable.
  rewrite (proj2 (Z.ltb_ge p1 0)), (proj2 (Z.ltb_ge p2 0)) by done.
  rewrite Hs. erewrite get_struct_put by done.
  by rewrite put_struct_put_struct.
Qed.

(** X8.  The public functions that write a record -- enable, disable and
    set_values -- leave every other device as it was, keep the tags and
    the kinds of all devices, and so keep valid exactly the handles that
    were valid, whatever the handle and the arguments. *)
Theorem public_functions_frame w tag (p : Z) (values : double * double * double) :
  let kept w' :=
    others_untouched tag w w'
    ∧ same_handles w w'
    ∧ ∀ t, is_Some (inertial_unit_get_struct w' t)
           ↔ is_Some (inertial_unit_get_struct w t) in
  kept (wb_inertial_unit_enable tag p w)
  ∧ kept (wb_inertial_unit_disable tag w)
  ∧ kept (wbr_inertial_unit_set_values tag values w).
Proof.
  intros kept.
  assert (∀ w', others_untouched tag w w' → same_handles w w' → kept w') as Hkept.
  { intros w' Ho Hs. split; [done|]. split; [done|]. by apply same_handles_valid. }
  assert (∀ msg, kept (fprintf_stderr msg w)) as Hprint.
  { intros msg. by apply Hkept. }
  assert (∀ s, kept (put_struct tag s w)) as Hput.
  { intros s. apply Hkept; [apply put_struct_others|apply put_struct_handles]. }
  assert (kept (wb_inertial_unit_enable tag 0 w)
          ∧ kept (wb_inertial_unit_enable tag p w)) as [Henable0 Henable].
  { unfold wb_inertial_unit_enable. cbn [Z.ltb Z.compare].
    destruct (p <? 0), (inertial_unit_get_struct w tag); auto. }
  split; [done|]. split.
  - unfold wb_inertial_unit_disable.
    destruct (inertial_unit_get_struct w tag); auto.
  - unfold wbr_inertial_unit_set_values.
    destruct (inertial_unit_get_struct w tag); auto.
Qed.

(** X9.  On an invalid handle -- an unknown tag or the tag of a device of
    another kind -- each of the four getters returns its zero ([0] or
    [NULL]), prints one error naming itself, and leaves every device as
    it was. *)
Theorem getters_invalid_handle w tag :
  device w !! tag = None
  ∨ (∃ d, device w !! tag = Some d ∧ node d ≠ WB_NODE_INERTIAL_UNIT) →
  wb_inertial_unit_get_lookup_table_size tag w =
    (0, fprintf_stderr
          "Error: wb_inertial_unit_get_lookup_table_size(): invalid device tag." w)
  ∧ wb_inertial_unit_get_lookup_table tag w =
      (None, fprintf_stderr
               "Error: wb_inertial_unit_get_lookup_table(): invalid device tag." w)
  ∧ wb_inertial_unit_get_sampling_period tag w =
      (0, fprintf_stderr
            "Error: wb_inertial_unit_get_sampling_period(): invalid device tag." w)
  ∧ wb_inertial_unit_get_roll_pitch_yaw tag w =
      (None, fprintf_stderr
               "Error: wb_inertial_unit_get_roll_pitch_yaw(): invalid device tag." w)
  ∧ ∀ msg, device (fprintf_stderr msg w) = device w.
Proof.
  intros Hinvalid%get_struct_None.
  unfold wb_inertial_unit_get_lookup_table_size, wb_inertial_unit_get_lookup_table,
    wb_inertial_unit_get_sampling_period, wb_inertial_unit_get_roll_pitch_yaw.
  by rewrite Hinvalid.
Qed.

(** X10.  On a valid handle [wbr_inertial_unit_set_values] replaces the
    measurement and nothing else of the record, and
    [wb_inertial_unit_get_roll_pitch_yaw] called next returns the three
    values set, without touching any device. *)
Theorem set_values_then_get_roll_pitch_yaw w tag
    (values : double * double * double) s :
  inertial_unit_get_struct w tag = Some s →
  let w' := wbr_inertial_unit_set_values tag values w in
  inertial_unit_get_struct w' tag = Some (set_rpy values s)
  ∧ (wb_inertial_unit_get_roll_pitch_yaw tag w').1 = Some values
  ∧ device (wb_inertial_unit_get_roll_pitch_yaw tag w').2 = device w'.
Proof.
  intros Hs w'.
  assert (inertial_unit_get_struct w' tag = Some (set_rpy values s)) as Hs'.
  { subst w'. unfold wbr_inertial_unit_set_values. rewrite Hs.
    erewrite get_struct_put by done. by destruct values as [[v0 v1] v2]. }
  split; [done|].
  unfold wb_inertial_unit_get_roll_pitch_yaw. rewrite Hs'.
  split; [done|]. cbn [snd]. by destruct (_ <=? 0).
Qed.

(** X11.  Enabling does not disturb the measurement, and decides whether
    reading it is reported: after [wb_inertial_unit_enable] with a
    positive period the getter returns the measurement and prints
    nothing; with period 0 it returns the measurement and prints the
    disabled-device error. *)
Theorem enable_then_get_roll_pitch_yaw w tag (p : Z) s :
  0 ≤ p →
  inertial_unit_get_struct w tag = Some s →
  let w' := wb_inertial_unit_enable tag p w in
  (wb_inertial_unit_get_roll_pitch_yaw tag w').1 = Some (rpy s)
  ∧ (0 < p → (wb_inertial_unit_get_roll_pitch_yaw tag w').2 = w')
  ∧ (p = 0 →
     (wb_inertial_unit_get_roll_pitch_yaw tag w').2 =
       fprintf_stderr
         "Error: wb_inertial_unit_get_roll_pitch_yaw() called for a disabled device! Please use: wb_inertial_unit_enable()."
         w').
Proof.
  intros Hp Hs w'.
  assert (inertial_unit_get_struct w' tag =
          Some (set_sampling_period p (set_enable c_true s))) as Hs'.
  { subst w'. unfold wb_inertial_unit_enable.
    rewrite (proj2 (Z.ltb_ge p 0)) by done. rewrite Hs.
    by eapply get_struct_put. }
  unfold wb_inertial_unit_get_roll_pitch_yaw. rewrite Hs'.
  cbn [fst snd sampling_period set_sampling_period rpy set_enable].
  split; [done|]. split.
  - intros Hpos. by rewrite (proj2 (Z.leb_gt p 0)).
  - intros ->. done.
Qed.
End PublicFunctionsComposed.

(** ** The callbacks and the public functions, composed *)

Section CallbacksAndPublicFunctions.
Context {double WbRequest : Type}.
Context `{!Constants, !Float64 double, !Codec double WbRequest}.

Implicit Types (w : Robot double) (s : InertialUnit double) (tag : WbDeviceTag).

(** X12.  On a valid handle, two calls of [wb_inertial_unit_enable] with
    periods that are not negative followed by one flush of the device
    write one command, of the last period (converted to the 16-bit
    field), and leave the record as it was with the last period stored
    and [enable] clear. *)
Theorem enable_twice_then_flush w tag (p1 p2 : Z) s (r : WbRequest) :
  0 ≤ p1 → 0 ≤ p2 →
  inertial_unit_get_struct w tag = Some s →
  ∃ d,
    device (wb_inertial_unit_enable tag p2 (wb_inertial_unit_enable tag p1 w)) !! tag =
      Some d
    ∧ inertial_unit_write_request d r =
        (set_pdata (set_sampling_period p2 (set_enable c_false s)) d,
         request_write_uint16 (request_write_uchar r C_SET_SAMPLING_PERIOD)
           (to_uint16 p2)).
Proof.
  intros Hp1 Hp2 Hs.
  assert (wb_inertial_unit_enable tag p2 (wb_inertial_unit_enable tag p1 w) =
          put_struct tag (set_sampling_period p2 (set_enable c_true s)) w) as ->.
  { unfold wb_inertial_unit_enable.
    rewrite (proj2 (Z.ltb_ge p1 0)), (proj2 (Z.ltb_ge p2 0)) by done.
    rewrite Hs. erewrite get_struct_put by done.
    by rewrite put_struct_put_struct. }
  apply get_struct_Some in Hs as (d0 & Hd0 & _ & <-).
  exists (set_pdata (set_sampling_period p2 (set_enable c_true (pdata d0))) d0).
  split.
  - cbn [put_struct device]. by rewrite lookup_alter_eq, Hd0.
  - done.
Qed.

(** X13.  A Data message decoded on the device of a valid handle is what
    [wb_inertial_unit_get_roll_pitch_yaw] returns next: the three values
    of the message, in their order; the getter touches no device and,
    when the sampling period is positive, prints nothing. *)
Theorem data_then_get_roll_pitch_yaw (h : Heap double) w tag (d : WbDevice double)
    (r r0 r1 r2 r3 : WbRequest) (v0 v1 v2 : double) :
  device w !! tag = Some d →
  node d = WB_NODE_INERTIAL_UNIT →
  request_read_uchar r = (C_INERTIAL_UNIT_DATA, r0) →
  request_read_double r0 = (v0, r1) →
  request_read_double r1 = (v1, r2) →
  request_read_double r2 = (v2, r3) →
  ∃ d',
    inertial_unit_read_answer h d r = Done (h, d', r3)
    ∧ let w' := device_updated tag d' w in
      (wb_inertial_unit_get_roll_pitch_yaw tag w').1 = Some (v0, v1, v2)
      ∧ device (wb_inertial_unit_get_roll_pitch_yaw tag w').2 = device w'
      ∧ (0 < sampling_period (pdata d) →
         (wb_inertial_unit_get_roll_pitch_yaw tag w').2 = w').
Proof.
  intros Hd Hk Htag H0 H1 H2.
  exists (set_pdata (set_rpy (v0, v1, v2) (pdata d)) d). split.
  { unfold inertial_unit_read_answer.
    by rewrite Htag, Z.eqb_refl, H0, H1, H2. }
  intros w'. unfold wb_inertial_unit_get_roll_pitch_yaw.
  subst w'. rewrite (get_struct_device_updated w tag) by done.
  cbn [fst snd pdata set_pdata rpy set_rpy sampling_period].
  split; [done|]. split.
  - by destruct (_ <=? 0).
  - intros Hpos. by rewrite (proj2 (Z.leb_gt _ 0)).
Qed.

Hypothesis tags_distinct : C_INERTIAL_UNIT_DATA ≠ C_CONFIGURE.

(** X14.  A Configure message decoded on the device of a valid handle is
    what the table getters return next.  For a positive size [n] with
    [3n] within the range of [int]: the size [n] and a pointer to a block
    holding the [3n] values of the message in their order.  For a size
    [n <= 0]: the size [n] as received, negative sizes included, and
    [NULL].  Neither getter prints or touches the robot. *)
Theorem configure_then_get_lookup_table (h : Heap double) w tag (d : WbDevice double)
    (r r1 r2 : WbRequest) (n : Z) :
  device w !! tag = Some d →
  node d = WB_NODE_INERTIAL_UNIT →
  request_read_uchar r = (C_CONFIGURE, r1) →
  request_read_int32 r1 = (n, r2) →
  ∃ h' d' r',
    inertial_unit_read_answer h d r = Done (h', d', r')
    ∧ let w' := device_updated tag d' w in
      wb_inertial_unit_get_lookup_table_size tag w' = (n, w')
      ∧ (n ≤ 0 → wb_inertial_unit_get_lookup_table tag w' = (None, w'))
      ∧ (0 < n → n * 3 ≤ INT_MAX →
         ∃ p, wb_inertial_unit_get_lookup_table tag w' = (Some p, w')
              ∧ h' !! p = Some (Some <$> (read_doubles (Z.to_nat (n * 3)) r2).1)).
Proof using tags_distinct.
  intros Hd Hk Htag Hsize. destruct (Z.le_gt_cases n 0) as [Hn|Hn].
  - rewrite (read_answer_configure_nonpositive tags_distinct h d r r1 r2 n) by done.
    do 3 eexists. split; [done|]. intros w'.
    unfold wb_inertial_unit_get_lookup_table_size, wb_inertial_unit_get_lookup_table.
    subst w'. rewrite (get_struct_device_updated w tag) by done.
    split; [done|]. split; [done|]. lia.
  - rewrite (read_answer_configure_positive tags_distinct h d r r1 r2 n) by done.
    do 3 eexists. split; [done|]. intros w'.
    unfold wb_inertial_unit_get_lookup_table_size, wb_inertial_unit_get_lookup_table.
    subst w'. rewrite (get_struct_device_updated w tag) by done.
    split; [done|]. split; [lia|]. intros _ Hmax.
    eexists. split; [done|].
    rewrite table_cells by lia.
    rewrite to_int_small by (unfold INT_MAX in *; lia).
    rewrite (read_lookup_table_fills _ [] (replicate (Z.to_nat (n * 3)) None) []).
    + cbn [fst]. rewrite lookup_insert_eq. by rewrite app_nil_r.
    + rewrite lookup_insert_eq. by rewrite app_nil_r.
    + apply length_replicate.
Qed.
End CallbacksAndPublicFunctions.

(** ** Replacing the table, stopping the device *)

Section ReplaceAndStop.
Context {double WbRequest : Type}.
Context `{!Constants, !Float64 double, !Codec double WbRequest}.

Implicit Types (w : Robot double) (s : InertialUnit double) (tag : WbDeviceTag).

(** X15.  On a valid handle, [wb_inertial_unit_disable] followed by one
    flush of the device writes one command, of period 0, and leaves the
    record with period 0 and [enable] clear; the remote toggle then does
    nothing, so the command is not sent again. *)
Theorem disable_then_flush w tag s (r r' : WbRequest) :
  inertial_unit_get_struct w tag = Some s →
  ∃ d,
    device (wb_inertial_unit_disable tag w) !! tag = Some d
    ∧ inertial_unit_write_request d r =
        (set_pdata (set_sampling_period 0 (set_enable c_false s)) d,
         request_write_uint16 (request_write_uchar r C_SET_SAMPLING_PERIOD) 0)
    ∧ inertial_unit_toggle_remote (inertial_unit_write_request d r).1 r' =
        ((inertial_unit_write_request d r).1, r').
Proof.
  intros Hs. unfold wb_inertial_unit_disable, wb_inertial_unit_enable.
  rewrite Hs. cbn [Z.ltb Z.compare].
  apply get_struct_Some in Hs as (d0 & Hd0 & _ & <-).
  exists (set_pdata (set_sampling_period 0 (set_enable c_true (pdata d0))) d0).
  split; [|done].
  cbn [put_struct device]. by rewrite lookup_alter_eq, Hd0.
Qed.

Hypothesis tags_distinct : C_INERTIAL_UNIT_DATA ≠ C_CONFIGURE.

(** A Configure message leaves a device whose table, once released, gives
    back the heap without the old table, and whose record is the old one
    up to the table and its size. *)
Lemma configure_released (h : Heap double) (d : WbDevice double)
    (r r1 r2 : WbRequest) (n : Z) :
  request_read_uchar r = (C_CONFIGURE, r1) →
  request_read_int32 r1 = (n, r2) →
  ∃ h' t r',
    inertial_unit_read_answer h d r =
      Done (h', set_pdata (set_lookup_table t (set_lookup_table_size n (pdata d))) d, r')
    ∧ free t h' = free (lookup_table (pdata d)) h.
Proof using tags_distinct.
  intros Htag Hsize. destruct (Z.le_gt_cases n 0) as [Hn|Hn].
  - rewrite (read_answer_configure_nonpositive tags_distinct h d r r1 r2 n) by done.
    by eexists _, None, _.
  - rewrite (read_answer_configure_positive tags_distinct h d r r1 r2 n) by done.
    eexists _, (Some _), _. split; [done|].
    cbn [free]. rewrite read_lookup_table_delete.
    apply delete_insert_id, not_elem_of_dom, is_fresh.
Qed.

(** X16.  The table is replaced wholesale.  Decoding a Configure message
    after another Configure message gives the outcome -- heap, device
    and rest of the request -- of decoding the second message alone,
    whatever the two sizes: nothing of the first table is left, not even
    its storage. *)
Theorem configure_replaces_wholesale (h : Heap double) (d : WbDevice double)
    (rA rA1 rA2 rB rB1 rB2 : WbRequest) (nA nB : Z) :
  request_read_uchar rA = (C_CONFIGURE, rA1) →
  request_read_int32 rA1 = (nA, rA2) →
  request_read_uchar rB = (C_CONFIGURE, rB1) →
  request_read_int32 rB1 = (nB, rB2) →
  ∃ h1 d1 r1,
    inertial_unit_read_answer h d rA = Done (h1, d1, r1)
    ∧ inertial_unit_read_answer h1 d1 rB = inertial_unit_read_answer h d rB.
Proof using tags_distinct.
  intros HtagA HsizeA HtagB HsizeB.
  destruct (configure_released h d rA rA1 rA2 nA HtagA HsizeA)
    as (h1 & t & r1 & Hrun & Hfree).
  rewrite Hrun. do 3 eexists. split; [done|].
  destruct (Z.le_gt_cases nB 0) as [Hn|Hn].
  - rewrite !(read_answer_configure_nonpositive tags_distinct _ _ rB rB1 rB2 nB)
      by done.
    cbn [pdata set_pdata lookup_table set_lookup_table]. by rewrite Hfree.
  - rewrite !(read_answer_configure_positive tags_distinct _ _ rB rB1 rB2 nB)
      by done.
    cbn [pdata set_pdata lookup_table set_lookup_table]. by rewrite Hfree.
Qed.
End ReplaceAndStop.

(** * The properties on the byte-level codec *)

Import Wire.

Lemma wire_tags_distinct : C_INERTIAL_UNIT_DATA ≠ C_CONFIGURE.
Proof. discriminate. Defined.

(** A Configure message with a negative size leaves the table absent but
    stores the negative size: the stored size is not 0. *)
Lemma configure_negative_size_is_stored :
  let after :=
    set_lookup_table None (set_lookup_table_size (-1) (pdata device_with_table)) in
  inertial_unit_read_answer heap_with_table device_with_table (configure_message (-1) []) =
    Done (∅, set_pdata after device_with_table, mkRequest [0; 255; 255; 255; 255] 5)
  ∧ lookup_table after = None
  ∧ lookup_table_size after = -1
  ∧ lookup_table_size after ≠ 0.
Proof.
  split; [vm_compute; reflexivity|].
  split; [reflexivity|]. split; [reflexivity | discriminate].
Qed.

(** One row, replacing the table at location 1: the old block is released,
    the new one holds the three values of the message in their order. *)
Lemma read_answer_configure_witness :
  inertial_unit_read_answer heap_with_table device_with_table
    (configure_message 1 [d_0_1; d_m0_2; d_3_0]) =
    Done ({[ 1%positive := [Some d_0_1; Some d_m0_2; Some d_3_0] ]},
          device_with_table,
          mkRequest (data (configure_message 1 [d_0_1; d_m0_2; d_3_0])) 29)
  ∧ inertial_unit_read_answer heap_with_table device_with_table (configure_message 0 []) =
    Done (∅, fresh_device, mkRequest [0; 0; 0; 0; 0] 5).
Proof.
  split.
  - refine (eq_trans
      (proj1 (proj2 (proj2
         (read_answer_configure wire_tags_distinct heap_with_table device_with_table
            (configure_message 1 [d_0_1; d_m0_2; d_3_0]) _ _ 1 eq_refl eq_refl)) _ _)) _).
    + lia.
    + unfold INT_MAX; lia.
    + vm_compute; reflexivity.
  - refine (eq_trans
      (proj1 (proj2
         (read_answer_configure wire_tags_distinct heap_with_table device_with_table
            (configure_message 0 []) _ _ 0 eq_refl eq_refl)) _) _).
    + lia.
    + vm_compute; reflexivity.
Defined.

Lemma read_answer_data_witness :
  ∃ d',
    inertial_unit_read_answer ∅
      (mkWbDevice WB_NODE_INERTIAL_UNIT (mkInertialUnit 1 32 (NAN, NAN, NAN) 0 None))
      data_message =
      Done (∅, d', mkRequest (data data_message) 25)
    ∧ rpy (pdata d') = (d_0_1, d_m0_2, d_3_0)
    ∧ enable (pdata d') = 1
    ∧ sampling_period (pdata d') = 32
    ∧ lookup_table_size (pdata d') = 0
    ∧ lookup_table (pdata d') = None
    ∧ node d' = WB_NODE_INERTIAL_UNIT.
Proof.
  exact (proj2
           (read_answer_data ∅
              (mkWbDevice WB_NODE_INERTIAL_UNIT
                 (mkInertialUnit 1 32 (NAN, NAN, NAN) 0 None))
              data_message
              (mkRequest (data data_message) 1) (mkRequest (data data_message) 9)
              (mkRequest (data data_message) 17) (mkRequest (data data_message) 25)
              d_0_1 d_m0_2 d_3_0 eq_refl eq_refl eq_refl eq_refl)).
Defined.

Lemma read_answer_unknown_tag_witness :
  inertial_unit_read_answer heap_with_table device_with_table (message 7 [1; 2; 3]) = Fatal.
Proof.
  apply (read_answer_unknown_tag heap_with_table device_with_table (message 7 [1; 2; 3]));
    vm_compute; discriminate.
Defined.

Lemma read_answer_frame_witness :
  ∃ h' d' r',
    inertial_unit_read_answer heap_with_table (pending_device 32) data_message =
      Done (h', d', r')
    ∧ enable (pdata d') = c_true
    ∧ sampling_period (pdata d') = 32.
Proof.
  destruct (read_answer_frame wire_tags_distinct heap_with_table (pending_device 32)
              data_message)
    as (h' & d' & r' & Hrun & Hen & Hper & _); [left; reflexivity|].
  exists h', d', r'. auto.
Defined.

Lemma table_iff_size_invariant_witness :
  table_iff_size (pdata device_with_table)
  ∧ table_iff_size
      (set_lookup_table None (set_lookup_table_size (-1) (pdata device_with_table))).
Proof.
  assert (table_iff_size (pdata device_with_table)) as Hinv.
  { split; [intros _; reflexivity | intros _; eexists; reflexivity]. }
  split; [exact Hinv|].
  refine (proj1 (proj2 (table_iff_size_invariant (WbRequest := WbRequest)))
            heap_with_table ∅ device_with_table
            (set_pdata
               (set_lookup_table None (set_lookup_table_size (-1) (pdata device_with_table)))
               device_with_table)
            (configure_message (-1) [])
            (mkRequest [0; 255; 255; 255; 255] 5) Hinv _).
  vm_compute; reflexivity.
Defined.

(** A device enabled with period 65536 through the public function is
    flushed as a command whose period field is 0, the very bytes of the
    command that stops sampling: the command does not carry the current
    sampling period. *)
Lemma write_request_period_65536 :
  inertial_unit_get_struct (wb_inertial_unit_enable 1 65536 robot0) 1 =
    Some (pdata (pending_device 65536))
  ∧ data (inertial_unit_write_request (pending_device 65536) empty_request).2 =
      [C_SET_SAMPLING_PERIOD; 0; 0]
  ∧ le_value (drop 1 (data (inertial_unit_write_request (pending_device 65536)
                              empty_request).2))
      ≠ sampling_period (pdata (pending_device 65536))
  ∧ (inertial_unit_write_request (pending_device 65536) empty_request).2 =
      (inertial_unit_write_request (pending_device 0) empty_request).2.
Proof.
  split; [vm_compute; reflexivity|].
  split; [vm_compute; reflexivity|].
  split; [vm_compute; discriminate|].
  vm_compute; reflexivity.
Qed.

Lemma write_request_flush_witness :
  inertial_unit_write_request (pending_device 100) empty_request =
    (set_pdata (set_sampling_period 100 inertial_unit_create) fresh_device,
     mkRequest [C_SET_SAMPLING_PERIOD; 100; 0] 3)
  ∧ inertial_unit_write_request fresh_device empty_request = (fresh_device, empty_request)
  ∧ sampling_period (pdata (pending_device 100)) `mod` 2 ^ 16 = 100.
Proof.
  split; [|split].
  - refine (eq_trans
      (proj1 (write_request_flush (pending_device 100) empty_request) _) _).
    + discriminate.
    + vm_compute; reflexivity.
  - exact (proj1 (proj2 (write_request_flush fresh_device empty_request)) eq_refl).
  - apply (proj2 (proj2 (write_request_flush (pending_device 100) empty_request))).
    vm_compute. split; [discriminate | reflexivity].
Defined.

Lemma toggle_remote_rearms_witness :
  enable (pdata (inertial_unit_toggle_remote
                   (mkWbDevice WB_NODE_INERTIAL_UNIT
                      (mkInertialUnit 0 32 (NAN, NAN, NAN) 0 None))
                   empty_request).1) = 1
  ∧ inertial_unit_toggle_remote
      (mkWbDevice WB_NODE_INERTIAL_UNIT (mkInertialUnit 0 32 (NAN, NAN, NAN) 0 None))
      empty_request =
    (mkWbDevice WB_NODE_INERTIAL_UNIT (mkInertialUnit 1 32 (NAN, NAN, NAN) 0 None),
     empty_request)
  ∧ enable (pdata (inertial_unit_toggle_remote
                     (mkWbDevice WB_NODE_INERTIAL_UNIT
                        (mkInertialUnit 1 32 (NAN, NAN, NAN) 0 None))
                     empty_request).1) = 1
  ∧ inertial_unit_toggle_remote
      (mkWbDevice WB_NODE_INERTIAL_UNIT (mkInertialUnit 0 0 (NAN, NAN, NAN) 0 None))
      empty_request =
    (mkWbDevice WB_NODE_INERTIAL_UNIT (mkInertialUnit 0 0 (NAN, NAN, NAN) 0 None),
     empty_request).
Proof.
  split; [|split; [|split]].
  - apply (proj1 (toggle_remote_rearms
                    (mkWbDevice WB_NODE_INERTIAL_UNIT
                       (mkInertialUnit 0 32 (NAN, NAN, NAN) 0 None))
                    empty_request)).
    discriminate.
  - refine (eq_trans
      (proj1 (proj1 (toggle_remote_rearms
                       (mkWbDevice WB_NODE_INERTIAL_UNIT
                          (mkInertialUnit 0 32 (NAN, NAN, NAN) 0 None))
                       empty_request) _)) _).
    + discriminate.
    + vm_compute; reflexivity.
  - apply (proj1 (toggle_remote_rearms
                    (mkWbDevice WB_NODE_INERTIAL_UNIT
                       (mkInertialUnit 1 32 (NAN, NAN, NAN) 0 None))
                    empty_request)).
    discriminate.
  - apply (proj2 (toggle_remote_rearms
                    (mkWbDevice WB_NODE_INERTIAL_UNIT
                       (mkInertialUnit 0 0 (NAN, NAN, NAN) 0 None))
                    empty_request)).
    reflexivity.
Defined.

Lemma enable_then_get_sampling_period_witness :
  wb_inertial_unit_get_sampling_period 1 (wb_inertial_unit_enable 1 32 robot0) =
    (32, wb_inertial_unit_enable 1 32 robot0)
  ∧ inertial_unit_get_struct (wb_inertial_unit_enable 1 0 robot0) 1 =
      Some (pdata (pending_device 0)).
Proof.
  split.
  - apply (enable_then_get_sampling_period robot0 1 32 inertial_unit_create);
      [lia | reflexivity].
  - apply (enable_then_get_sampling_period robot0 1 0 inertial_unit_create);
      [lia | reflexivity].
Defined.

Lemma enable_negative_period_witness :
  device (wb_inertial_unit_enable 1 (-1) robot0) = device robot0
  ∧ stderr (wb_inertial_unit_enable 1 (-1) robot0) =
      stderr robot0 ++
      ["Error: wb_inertial_unit_enable() called with negative sampling period."].
Proof. apply enable_negative_period. lia. Defined.

Lemma disable_is_enable_0_witness :
  wb_inertial_unit_disable 1 robot0 = wb_inertial_unit_enable 1 0 robot0
  ∧ device (wb_inertial_unit_disable 2 robot0) = device robot0
  ∧ device (wb_inertial_unit_enable 3 0 robot0) = device robot0.
Proof.
  split; [|split].
  - apply (proj1 (disable_is_enable_0 robot0 1) inertial_unit_create). reflexivity.
  - apply (proj2 (disable_is_enable_0 robot0 2)). reflexivity.
  - apply (proj2 (disable_is_enable_0 robot0 3)). reflexivity.
Defined.

(** ** Runs of the composed properties *)

Lemma configure_heap_footprint_witness :
  ∃ h' d' r',
    inertial_unit_read_answer heap_with_table device_with_table
      (configure_message 2 [d_0_1; d_m0_2; d_3_0; d_3_0; d_m0_2; d_0_1]) =
      Done (h', d', r')
    ∧ (∀ p, lookup_table (pdata d') = Some p →
         free (lookup_table (pdata device_with_table)) heap_with_table !! p = None)
    ∧ (∀ l, lookup_table (pdata device_with_table) ≠ Some l →
            lookup_table (pdata d') ≠ Some l →
            h' !! l = heap_with_table !! l).
Proof.
  exact (configure_heap_footprint wire_tags_distinct heap_with_table device_with_table
           (configure_message 2 [d_0_1; d_m0_2; d_3_0; d_3_0; d_m0_2; d_0_1])
           _ _ 2 eq_refl eq_refl).
Defined.


Lemma configure_then_cleanup_witness :
  ∃ h' d' r',
    inertial_unit_read_answer heap_with_table device_with_table
      (configure_message 1 [d_0_1; d_m0_2; d_3_0]) = Done (h', d', r')
    ∧ inertial_unit_cleanup h' d' =
        free (lookup_table (pdata device_with_table)) heap_with_table.
Proof.
  exact (configure_then_cleanup wire_tags_distinct heap_with_table device_with_table
           (configure_message 1 [d_0_1; d_m0_2; d_3_0]) _ _ 1 eq_refl eq_refl).
Defined.

Lemma toggle_remote_then_flush_witness :
  inertial_unit_write_request
      (inertial_unit_toggle_remote
         (set_pdata (set_sampling_period 32 inertial_unit_create) fresh_device)
         empty_request).1
      empty_request =
    (set_pdata (set_sampling_period 32 inertial_unit_create) fresh_device,
     mkRequest [C_SET_SAMPLING_PERIOD; 32; 0] 3)
  ∧ inertial_unit_write_request
      (inertial_unit_toggle_remote fresh_device empty_request).1 empty_request =
    (fresh_device, empty_request).
Proof.
  split.
  - refine (eq_trans
      (proj1 (toggle_remote_then_flush
                (set_pdata (set_sampling_period 32 inertial_unit_create) fresh_device)
                empty_request empty_request) _) _).
    + discriminate.
    + vm_compute; reflexivity.
  - exact (proj1 (proj2 (toggle_remote_then_flush fresh_device empty_request
                           empty_request)) eq_refl eq_refl).
Defined.

Lemma period_and_flag_invariant_witness :
  period_and_flag_ok
    (pdata (inertial_unit_write_request (pending_device 32) empty_request).1).
Proof.
  apply (proj1 (proj2 (proj2 (proj2
           (period_and_flag_invariant (WbRequest := WbRequest)))))
           (pending_device 32) empty_request).
  split; [discriminate | right; reflexivity].
Defined.

Lemma enable_last_write_wins_witness :
  wb_inertial_unit_enable 1 32 (wb_inertial_unit_enable 1 10 robot0) =
    wb_inertial_unit_enable 1 32 robot0.
Proof.
  apply (enable_last_write_wins robot0 1 10 32 inertial_unit_create);
    [lia | lia | reflexivity].
Defined.

Lemma getters_invalid_handle_witness :
  wb_inertial_unit_get_sampling_period 3 robot0 =
    (0, fprintf_stderr
          "Error: wb_inertial_unit_get_sampling_period(): invalid device tag." robot0)
  ∧ wb_inertial_unit_get_lookup_table 2 robot0 =
    (None, fprintf_stderr
             "Error: wb_inertial_unit_get_lookup_table(): invalid device tag." robot0).
Proof.
  split.
  - apply (getters_invalid_handle robot0 3). left. reflexivity.
  - apply (getters_invalid_handle robot0 2). right.
    eexists. split; [reflexivity | discriminate].
Defined.

Lemma set_values_then_get_roll_pitch_yaw_witness :
  (wb_inertial_unit_get_roll_pitch_yaw 1
     (wbr_inertial_unit_set_values 1 (d_0_1, d_m0_2, d_3_0) robot0)).1 =
    Some (d_0_1, d_m0_2, d_3_0).
Proof.
  apply (set_values_then_get_roll_pitch_yaw robot0 1 (d_0_1, d_m0_2, d_3_0)
           inertial_unit_create).
  reflexivity.
Defined.

Lemma enable_then_get_roll_pitch_yaw_witness :
  (wb_inertial_unit_get_roll_pitch_yaw 1 (wb_inertial_unit_enable 1 32 robot0)).2 =
    wb_inertial_unit_enable 1 32 robot0
  ∧ (wb_inertial_unit_get_roll_pitch_yaw 1 (wb_inertial_unit_enable 1 0 robot0)).1 =
    Some (NAN, NAN, NAN).
Proof.
  split.
  - apply (enable_then_get_roll_pitch_yaw robot0 1 32 inertial_unit_create);
      [lia | reflexivity | lia].
  - apply (enable_then_get_roll_pitch_yaw robot0 1 0 inertial_unit_create);
      [lia | reflexivity].
Defined.

Lemma enable_twice_then_flush_witness :
  ∃ d,
    device (wb_inertial_unit_enable 1 32 (wb_inertial_unit_enable 1 10 robot0)) !! 1%N =
      Some d
    ∧ inertial_unit_write_request d empty_request =
        (set_pdata (set_sampling_period 32 (set_enable c_false inertial_unit_create)) d,
         request_write_uint16 (request_write_uchar empty_request C_SET_SAMPLING_PERIOD)
           (to_uint16 32)).
Proof.
  apply (enable_twice_then_flush robot0 1 10 32 inertial_unit_create empty_request);
    [lia | lia | reflexivity].
Defined.

Lemma data_then_get_roll_pitch_yaw_witness :
  ∃ d',
    inertial_unit_read_answer ∅ fresh_device data_message =
      Done (∅, d', mkRequest (data data_message) 25)
    ∧ let w' := device_updated 1 d' robot0 in
      (wb_inertial_unit_get_roll_pitch_yaw 1 w').1 = Some (d_0_1, d_m0_2, d_3_0)
      ∧ device (wb_inertial_unit_get_roll_pitch_yaw 1 w').2 = device w'
      ∧ (0 < sampling_period (pdata fresh_device) →
         (wb_inertial_unit_get_roll_pitch_yaw 1 w').2 = w').
Proof.
  exact (data_then_get_roll_pitch_yaw ∅ robot0 1 fresh_device data_message
           (mkRequest (data data_message) 1) (mkRequest (data data_message) 9)
           (mkRequest (data data_message) 17) (mkRequest (data data_message) 25)
           d_0_1 d_m0_2 d_3_0 eq_refl eq_refl eq_refl eq_refl eq_refl eq_refl).
Defined.

Lemma configure_then_get_lookup_table_witness :
  ∃ h' d' r',
    inertial_unit_read_answer ∅ fresh_device
      (configure_message 1 [d_0_1; d_m0_2; d_3_0]) = Done (h', d', r')
    ∧ let w' := device_updated 1 d' robot0 in
      wb_inertial_unit_get_lookup_table_size 1 w' = (1, w')
      ∧ (1 ≤ 0 → wb_inertial_unit_get_lookup_table 1 w' = (None, w'))
      ∧ (0 < 1 → 1 * 3 ≤ INT_MAX →
         ∃ p, wb_inertial_unit_get_lookup_table 1 w' = (Some p, w')
              ∧ h' !! p =
                  Some (Some <$> (read_doubles (Z.to_nat (1 * 3))
                                    (mkRequest
                                       (data (configure_message 1 [d_0_1; d_m0_2; d_3_0]))
                                       5)).1)).
Proof.
  exact (configure_then_get_lookup_table wire_tags_distinct ∅ robot0 1 fresh_device
           (configure_message 1 [d_0_1; d_m0_2; d_3_0]) _ _ 1
           eq_refl eq_refl eq_refl eq_refl).
Defined.

Lemma disable_then_flush_witness :
  ∃ d,
    device (wb_inertial_unit_disable 1 robot0) !! 1%N = Some d
    ∧ inertial_unit_write_request d empty_request =
        (set_pdata (set_sampling_period 0 (set_enable c_false inertial_unit_create)) d,
         request_write_uint16
           (request_write_uchar empty_request C_SET_SAMPLING_PERIOD) 0)
    ∧ inertial_unit_toggle_remote (inertial_unit_write_request d empty_request).1
        empty_request =
        ((inertial_unit_write_request d empty_request).1, empty_request).
Proof.
  exact (disable_then_flush robot0 1 inertial_unit_create empty_request empty_request
           eq_refl).
Defined.

Lemma configure_replaces_wholesale_witness :
  ∃ h1 d1 r1,
    inertial_unit_read_answer heap_with_table device_with_table
      (configure_message 2 [d_0_1; d_m0_2; d_3_0; d_3_0; d_m0_2; d_0_1]) =
      Done (h1, d1, r1)
    ∧ inertial_unit_read_answer h1 d1 (configure_message 1 [d_0_1; d_m0_2; d_3_0]) =
      inertial_unit_read_answer heap_with_table device_with_table
        (configure_message 1 [d_0_1; d_m0_2; d_3_0]).
Proof.
  exact (configure_replaces_wholesale wire_tags_distinct heap_with_table
           device_with_table
           (configure_message 2 [d_0_1; d_m0_2; d_3_0; d_3_0; d_m0_2; d_0_1]) _ _
           (configure_message 1 [d_0_1; d_m0_2; d_3_0]) _ _ 2 1
           eq_refl eq_refl eq_refl eq_refl).
Defined.
